(** * The retrieval tools of [pydantic_ai_expert.py]

    A shallow embedding of the four coroutines of the module
    ([get_embedding], [retrieve_relevant_documentation],
    [list_documentation_pages], [get_page_content]) and the properties
    its documentation states about them.

    Python text is a [string] of bytes (UTF-8); comparing two such
    strings byte by byte orders them as Python orders the code points.
    The two remote services are values: a client is the table of the
    answers its service gives, so "the state of the backend" is the
    client itself.  What a coroutine does besides returning (the lines
    it prints, the requests it sends) is threaded through a small
    monad with exceptions. *)

From Stdlib Require Import ZArith Strings.Ascii Strings.String Floats.SpecFloat.
From stdpp Require Import base option list strings gmap sorting.

(** ** Python values *)

(** The line feed, written [\n] in the source. *)
Definition LF : string := String "010"%char "".

(** An element of an embedding: the provider sends floats, the fallback
    [[0] * 1536] holds the integer [0]. *)
Inductive pynum : Type :=
| PyInt (z : Z)
| PyFloat (f : spec_float).

(** A raised exception of the class [Exception], the ones the
    handlers of the module catch; [str] is what [str(e)] and [{e}]
    give. *)
Record exn : Type := Exception { str : string }.

Inductive outcome (A : Type) : Type :=
| Returns (a : A)
| Raises (e : exn).
Arguments Returns {A} a.
Arguments Raises {A} e.

(** [l[i]] on a list. *)
Definition getitem {A} (l : list A) (i : nat) : outcome A :=
  match l !! i with
  | Some x => Returns x
  | None => Raises (Exception "list index out of range")
  end.

(** [not l] on a list. *)
Definition py_not {A} (l : list A) : bool :=
  match l with
  | [] => true
  | _ :: _ => false
  end.

(** [sep.join(l)]. *)
Definition join (sep : string) (l : list string) : string := String.concat sep l.

(** [s.split(sep)]: the pieces of [s] between the occurrences of [sep],
    found from the left and not overlapping.  [skip] counts the
    characters of a separator still to pass over, [cur] is the piece
    being read. *)
Fixpoint split_go (sep s : string) (skip : nat) (cur : string) : list string :=
  match s with
  | "" => [cur]
  | String c s' =>
      match skip with
      | S k => split_go sep s' k cur
      | O =>
          if String.prefix sep s
          then cur :: split_go sep s' (String.length sep - 1) ""
          else split_go sep s' 0 (cur +:+ String c "")
      end
  end.

Definition split (s sep : string) : outcome (list string) :=
  match sep with
  | "" => Raises (Exception "empty separator")
  | _ => Returns (split_go sep s 0 "")
  end.

(** [sub in s]. *)
Fixpoint contains (s sub : string) : bool :=
  String.prefix sub s ||
  match s with
  | "" => false
  | String _ s' => contains s' sub
  end.

(** [sorted(l)] on strings.  The order is total and antisymmetric, so
    the outcome is the one ascending arrangement of [l], whatever the
    sorting algorithm. *)
Definition sorted (l : list string) : list string := merge_sort String.le l.

(** ** The remote services *)

Module OpenAI.
Record Embedding : Type := { embedding : list pynum }.
Record CreateEmbeddingResponse : Type := { data : list Embedding }.
(** [embeddings_create model input] is the answer of
    [client.embeddings.create(model=..., input=...)]. *)
Record AsyncOpenAI : Type :=
  { embeddings_create : string → string → outcome CreateEmbeddingResponse }.
End OpenAI.

Module Supabase.
(** A row of [site_pages] as the queries below read it: the columns
    are text and present in every row ([doc['title']] finds its key);
    a column a query does not select is not read. *)
Record row : Type :=
  { url : string; title : string; content : string; chunk_number : Z }.

(** The parameters of the remote procedure [match_site_pages]. *)
Record match_params : Type :=
  { query_embedding : list pynum;
    match_count : Z;
    filter : gmap string string }.

(** A request as the builder chain assembles it. *)
Inductive query : Type :=
| rpc (fn : string) (params : match_params)
| table_query (table : string) (columns : string)
    (eqs : list (string * string)) (ordering : option string).

Definition from_ (table : string) : query := table_query table "*" [] None.
Definition select (columns : string) (q : query) : query :=
  match q with
  | table_query t _ eqs o => table_query t columns eqs o
  | rpc _ _ => q
  end.
Definition eq_ (column value : string) (q : query) : query :=
  match q with
  | table_query t c eqs o => table_query t c (eqs ++ [(column, value)]) o
  | rpc _ _ => q
  end.
Definition order (column : string) (q : query) : query :=
  match q with
  | table_query t c eqs _ => table_query t c eqs (Some column)
  | rpc _ _ => q
  end.

Record APIResponse : Type := { data : list row }.
(** [execute q] is the answer of [q.execute()]. *)
Record Client : Type := { execute : query → outcome APIResponse }.
End Supabase.

Record PydanticAIDeps : Type :=
  { supabase : Supabase.Client; openai_client : OpenAI.AsyncOpenAI }.

Record RunContext : Type := { deps : PydanticAIDeps }.

(** ** Effects *)

Inductive request : Type :=
| EmbeddingsCreate (model input : string)
| Execute (q : Supabase.query).

(** What a run leaves behind: the lines printed and the requests sent,
    oldest first. *)
Record effects : Type := { stdout : list string; sent : list request }.

Definition io (A : Type) : Type := effects → outcome A * effects.

Definition ret {A} (a : A) : io A := λ σ, (Returns a, σ).

Definition lift {A} (o : outcome A) : io A := λ σ, (o, σ).

Definition bind {A B} (m : io A) (k : A → io B) : io B :=
  λ σ, match m σ with
       | (Returns a, σ') => k a σ'
       | (Raises e, σ') => (Raises e, σ')
       end.

(** [try: body except Exception as e: handler e]. *)
Definition try_except {A} (body : io A) (handler : exn → io A) : io A :=
  λ σ, match body σ with
       | (Returns a, σ') => (Returns a, σ')
       | (Raises e, σ') => handler e σ'
       end.

Definition print (line : string) : io unit :=
  λ σ, (Returns tt, {| stdout := stdout σ ++ [line]; sent := sent σ |}).

Definition send (r : request) : io unit :=
  λ σ, (Returns tt, {| stdout := stdout σ; sent := sent σ ++ [r] |}).

Declare Scope io_scope.
Delimit Scope io_scope with io.
Notation "'let*' x ':=' m 'in' k" := (bind m (λ x, k))
  (at level 10, x name, m at level 100, k at level 200) : io_scope.
Notation "m '>>' k" := (bind m (λ _, k))
  (at level 65, right associativity) : io_scope.
Local Open Scope io_scope.

(** The two awaited calls. *)
Definition await_create (c : OpenAI.AsyncOpenAI) (model input : string)
  : io OpenAI.CreateEmbeddingResponse :=
  send (EmbeddingsCreate model input) >> lift (OpenAI.embeddings_create c model input).

Definition await_execute (c : Supabase.Client) (q : Supabase.query)
  : io Supabase.APIResponse :=
  send (Execute q) >> lift (Supabase.execute c q).

(** ** The coroutines *)

Definition zero_vector : list pynum := replicate 1536 (PyInt 0).

Definition get_embedding (text : string) (openai_client : OpenAI.AsyncOpenAI)
  : io (list pynum) :=
  try_except
    (let* response := await_create openai_client "text-embedding-3-small" text in
     let* first := lift (getitem (OpenAI.data response) 0) in
     ret (OpenAI.embedding first))
    (λ e, print ("Error getting embedding: " +:+ str e) >> ret zero_vector).

(** The text rendered for one row of a search result. *)
Definition chunk_text (doc : Supabase.row) : string :=
  LF +:+ "# " +:+ Supabase.title doc +:+ LF +:+
  LF +:+
  Supabase.content doc +:+ LF.

(** The request of [retrieve_relevant_documentation]. *)
Definition match_site_pages (query_embedding : list pynum) : Supabase.query :=
  Supabase.rpc "match_site_pages"
    {| Supabase.query_embedding := query_embedding;
       Supabase.match_count := 5;
       Supabase.filter := {[ "source" := "pydantic_ai_docs" ]} |}.

Definition retrieve_relevant_documentation (ctx : RunContext) (user_query : string)
  : io string :=
  try_except
    (let* query_embedding := get_embedding user_query (openai_client (deps ctx)) in
     let* result :=
       await_execute (supabase (deps ctx)) (match_site_pages query_embedding) in
     if py_not (Supabase.data result)
     then ret "No relevant documentation found."
     else
       let formatted_chunks :=
         foldl (λ formatted_chunks doc, formatted_chunks ++ [chunk_text doc])
           [] (Supabase.data result) in
       ret (join (LF +:+ LF +:+ "---" +:+ LF +:+ LF) formatted_chunks))
    (λ e, print ("Error retrieving documentation: " +:+ str e) >>
          ret ("Error retrieving documentation: " +:+ str e)).

(** The request of [list_documentation_pages]. *)
Definition site_pages_urls : Supabase.query :=
  Supabase.eq_ "metadata->>source" "n8n_docs"
    (Supabase.select "url" (Supabase.from_ "site_pages")).

(** The request of [get_page_content]. *)
Definition site_pages_chunks (url : string) : Supabase.query :=
  Supabase.order "chunk_number"
    (Supabase.eq_ "metadata->>source" "n8n_docs"
       (Supabase.eq_ "url" url
          (Supabase.select "title, content, chunk_number"
             (Supabase.from_ "site_pages")))).

Section HashOrder.
(** [set_iter X] is the order in which iterating the set [X] yields
    its elements.  Python leaves it open (it varies with the hash
    seed of the process); each element comes once. *)
Variable set_iter : gset string → list string.

Definition list_documentation_pages (ctx : RunContext) : io (list string) :=
  try_except
    (let* result := await_execute (supabase (deps ctx)) site_pages_urls in
     if py_not (Supabase.data result)
     then ret []
     else
       let urls :=
         sorted (set_iter (list_to_set (Supabase.url <$> Supabase.data result))) in
       ret urls)
    (λ e, print ("Error retrieving documentation pages: " +:+ str e) >> ret []).
End HashOrder.

Definition get_page_content (ctx : RunContext) (url : string) : io string :=
  try_except
    (let* result := await_execute (supabase (deps ctx)) (site_pages_chunks url) in
     if py_not (Supabase.data result)
     then ret ("No content found for URL: " +:+ url)
     else
       let* first := lift (getitem (Supabase.data result) 0) in
       let* pieces := lift (split (Supabase.title first) " - ") in
       let* page_title := lift (getitem pieces 0) in
       let formatted_content :=
         foldl (λ formatted_content chunk, formatted_content ++ [Supabase.content chunk])
           ["# " +:+ page_title +:+ LF] (Supabase.data result) in
       ret (join (LF +:+ LF) formatted_content))
    (λ e, print ("Error retrieving page content: " +:+ str e) >>
          ret ("Error retrieving page content: " +:+ str e)).

(** ** The tools as the agent calls them *)

(** The three functions registered with [@pydantic_ai_expert.tool], with
    the arguments the agent supplies. *)
Inductive tool : Type :=
| RetrieveRelevantDocumentation (user_query : string)
| ListDocumentationPages
| GetPageContent (url : string).

(** What a tool hands back: [str] for two of them, [List[str]] for the
    listing. *)
Inductive tool_return : Type :=
| Str (s : string)
| StrList (l : list string).

Definition fmap_io {A B} (f : A → B) (m : io A) : io B :=
  let* a := m in ret (f a).

Definition call_tool (set_iter : gset string → list string)
    (ctx : RunContext) (t : tool) : io tool_return :=
  match t with
  | RetrieveRelevantDocumentation user_query =>
      fmap_io Str (retrieve_relevant_documentation ctx user_query)
  | ListDocumentationPages =>
      fmap_io StrList (list_documentation_pages set_iter ctx)
  | GetPageContent url =>
      fmap_io Str (get_page_content ctx url)
  end.

(** The [source] label a request restricts the rows to. *)
Definition source_label (q : Supabase.query) : option string :=
  match q with
  | Supabase.rpc _ params => Supabase.filter params !! "source"
  | Supabase.table_query _ _ eqs _ =>
      (λ iv, iv.2.2) <$> list_find (λ cv, cv.1 = "metadata->>source") eqs
  end.

(** The requests to the store among those sent. *)
Definition executed (σ : effects) : list Supabase.query :=
  omap (λ r, match r with Execute q => Some q | EmbeddingsCreate _ _ => None end)
    (sent σ).

(** ** Assumptions on the surroundings *)

(** The model [text-embedding-3-small] answers with vectors of 1536
    numbers. *)
Definition provider_contract (c : OpenAI.AsyncOpenAI) : Prop :=
  ∀ input r,
    OpenAI.embeddings_create c "text-embedding-3-small" input = Returns r →
    Forall (λ e, length (OpenAI.embedding e) = 1536) (OpenAI.data r).

(** Iterating a set yields each of its elements once. *)
Definition set_iteration (set_iter : gset string → list string) : Prop :=
  ∀ X, set_iter X ≡ₚ elements X.

(** An error text as the tools word it. *)
Definition error_indicator (s : string) : Prop :=
  ∃ rest, s = "Error retrieving " +:+ rest.

(** A store that is down: every request raises. *)
Definition store_down (c : Supabase.Client) : Prop :=
  ∀ q, ∃ e, Supabase.execute c q = Raises e.

(** The reading of the documentation under which every tool answers a
    failure of the store with an error text. *)
Definition failure_gives_error_text : Prop :=
  ∀ (set_iter : gset string → list string) (ctx : RunContext) (t : tool) (σ : effects),
    set_iteration set_iter →
    store_down (supabase (deps ctx)) →
    ∃ s σ', call_tool set_iter ctx t σ = (Returns (Str s), σ') ∧ error_indicator s.

(** ** Sample surroundings *)

Definition quiet : effects := {| stdout := []; sent := [] |}.

Definition sample_vector : list pynum :=
  replicate 1536 (PyFloat (S754_finite false 1 0)).

Definition sample_provider : OpenAI.AsyncOpenAI :=
  {| OpenAI.embeddings_create := λ _ _,
       Returns {| OpenAI.data := [ {| OpenAI.embedding := sample_vector |} ] |} |}.

Definition failing_provider : OpenAI.AsyncOpenAI :=
  {| OpenAI.embeddings_create := λ _ _, Raises (Exception "Connection error.") |}.

Definition store_answering (rows : list Supabase.row) : Supabase.Client :=
  {| Supabase.execute := λ _, Returns {| Supabase.data := rows |} |}.

Definition failing_store : Supabase.Client :=
  {| Supabase.execute := λ _, Raises (Exception "Server disconnected") |}.

Definition context (s : Supabase.Client) (c : OpenAI.AsyncOpenAI) : RunContext :=
  {| deps := {| supabase := s; openai_client := c |} |}.

Definition chunk (u t c : string) (n : Z) : Supabase.row :=
  {| Supabase.url := u; Supabase.title := t; Supabase.content := c;
     Supabase.chunk_number := n |}.

Definition sample_rows : list Supabase.row :=
  [ chunk "https://docs.n8n.io/a" "Webhook node" "Listens for requests." 0;
    chunk "https://docs.n8n.io/b" "HTTP Request node" "Calls a service." 3 ].

Definition setup_rows : list Supabase.row :=
  [ chunk "https://docs.n8n.io/setup" "Setup Guide - n8n Docs" "Step 1." 0;
    chunk "https://docs.n8n.io/setup" "Setup Guide - n8n Docs" "Step 2." 1 ].

Definition quickstart_rows : list Supabase.row :=
  [ chunk "https://docs.n8n.io/q" "Quickstart" "Install." 0;
    chunk "https://docs.n8n.io/q" "Quickstart" "Run." 1 ].

(** A provider whose embedding holds three numbers. *)
Definition short_provider : OpenAI.AsyncOpenAI :=
  {| OpenAI.embeddings_create := λ _ _,
       Returns {| OpenAI.data :=
                    [ {| OpenAI.embedding :=
                           [PyFloat (S754_finite false 1 0); PyFloat (S754_zero false);
                            PyFloat (S754_finite true 3 (-2))] |} ] |} |}.

(** The reading of the documentation under which the vector of
    [get_embedding] holds 1536 numbers whatever the provider does, and
    1536 zeros when the call to the provider raises. *)
Definition embedding_has_fixed_length : Prop :=
  ∀ (text : string) (c : OpenAI.AsyncOpenAI) (σ : effects),
    ∃ v σ',
      get_embedding text c σ = (Returns v, σ') ∧
      length v = 1536 ∧
      match OpenAI.embeddings_create c "text-embedding-3-small" text with
      | Raises _ => v = replicate 1536 (PyInt 0)
      | Returns _ => True
      end.

(** A provider whose answer holds no embedding. *)
Definition empty_answer_provider : OpenAI.AsyncOpenAI :=
  {| OpenAI.embeddings_create := λ _ _, Returns {| OpenAI.data := [] |} |}.

Definition six_rows : list Supabase.row :=
  (λ n, chunk "https://docs.n8n.io/nodes" "Nodes" "One node." (Z.of_nat n)) <$> seq 0 6.

(** * Properties *)

(** ** Running the monad *)

Lemma foldl_snoc_fmap {A B} (f : A → B) (l : list A) (acc : list B) :
  foldl (λ acc x, acc ++ [f x]) acc l = acc ++ (f <$> l).
Proof.
  revert acc. induction l as [|x l IH]; intros acc; simpl.
  - by rewrite app_nil_r.
  - rewrite IH. by rewrite <- app_assoc.
Qed.

Lemma response_eta (r : Supabase.APIResponse) :
  r = {| Supabase.data := Supabase.data r |}.
Proof. by destruct r. Qed.

Lemma executed_create out σ model input :
  executed {| stdout := out; sent := sent σ ++ [EmbeddingsCreate model input] |}
  = executed σ.
Proof. unfold executed. simpl. rewrite omap_app. simpl. by rewrite app_nil_r. Qed.

Lemma executed_execute out σ q :
  executed {| stdout := out; sent := sent σ ++ [Execute q] |} = executed σ ++ [q].
Proof. unfold executed. simpl. by rewrite omap_app. Qed.

Lemma executed_print out σ :
  executed {| stdout := out; sent := sent σ |} = executed σ.
Proof. done. Qed.

(** [get_embedding] never raises: it hands back the first embedding of
    the answer, or the zero vector when there is none. *)
Lemma get_embedding_run text c σ :
  ∃ v σ',
    get_embedding text c σ = (Returns v, σ') ∧
    executed σ' = executed σ ∧
    match OpenAI.embeddings_create c "text-embedding-3-small" text with
    | Returns r =>
        match OpenAI.data r with
        | first :: _ => v = OpenAI.embedding first
        | [] => v = zero_vector
        end
    | Raises _ => v = zero_vector
    end.
Proof.
  unfold get_embedding, try_except, await_create, bind, send, lift, ret, print.
  simpl.
  destruct (OpenAI.embeddings_create c _ text) as [r|e]; simpl.
  - destruct (OpenAI.data r) as [|first rest]; simpl; eexists _, _; split_and!;
      try done; apply executed_create.
  - eexists _, _; split_and!; try done. apply executed_create.
Qed.

Lemma retrieve_run ctx user_query σ v σ1 :
  get_embedding user_query (openai_client (deps ctx)) σ = (Returns v, σ1) →
  retrieve_relevant_documentation ctx user_query σ =
    let σ2 := (send (Execute (match_site_pages v)) σ1).2 in
    match Supabase.execute (supabase (deps ctx)) (match_site_pages v) with
    | Returns result =>
        (Returns
           (if py_not (Supabase.data result)
            then "No relevant documentation found."
            else join (LF +:+ LF +:+ "---" +:+ LF +:+ LF)
                   (chunk_text <$> Supabase.data result)),
         σ2)
    | Raises e =>
        (Returns ("Error retrieving documentation: " +:+ str e),
         (print ("Error retrieving documentation: " +:+ str e) σ2).2)
    end.
Proof.
  intros Hv.
  unfold retrieve_relevant_documentation, try_except, bind at 1.
  rewrite Hv. unfold await_execute, bind, send, lift, ret, print. simpl.
  destruct (Supabase.execute _ _) as [result|e]; simpl; [|done].
  destruct (py_not _); simpl; [done|].
  by rewrite (foldl_snoc_fmap chunk_text).
Qed.

Lemma list_run set_iter ctx σ :
  list_documentation_pages set_iter ctx σ =
    let σ1 := (send (Execute site_pages_urls) σ).2 in
    match Supabase.execute (supabase (deps ctx)) site_pages_urls with
    | Returns result =>
        (Returns
           (if py_not (Supabase.data result)
            then []
            else sorted (set_iter (list_to_set (Supabase.url <$> Supabase.data result)))),
         σ1)
    | Raises e =>
        (Returns [],
         (print ("Error retrieving documentation pages: " +:+ str e) σ1).2)
    end.
Proof.
  unfold list_documentation_pages, try_except, await_execute, bind, send, lift, ret, print.
  simpl.
  destruct (Supabase.execute _ _) as [result|e]; simpl; [|done].
  by destruct (py_not _).
Qed.

Lemma split_go_cons sep s skip cur :
  ∃ piece pieces, split_go sep s skip cur = piece :: pieces.
Proof.
  revert skip cur. induction s as [|c s IH]; intros skip cur; cbn [split_go].
  - by eexists _, _.
  - destruct skip as [|k]; [|apply IH].
    destruct (String.prefix sep (String c s)); [by eexists _, _|apply IH].
Qed.

Lemma get_page_run ctx url σ :
  get_page_content ctx url σ =
    let σ1 := (send (Execute (site_pages_chunks url)) σ).2 in
    match Supabase.execute (supabase (deps ctx)) (site_pages_chunks url) with
    | Returns result =>
        (Returns
           match Supabase.data result with
           | [] => "No content found for URL: " +:+ url
           | first :: _ =>
               join (LF +:+ LF)
                 (("# " +:+ default "" (head (split_go " - " (Supabase.title first) 0 ""))
                     +:+ LF)
                  :: (Supabase.content <$> Supabase.data result))
           end,
         σ1)
    | Raises e =>
        (Returns ("Error retrieving page content: " +:+ str e),
         (print ("Error retrieving page content: " +:+ str e) σ1).2)
    end.
Proof.
  unfold get_page_content, try_except, await_execute, bind at 1 2, send, lift at 1, ret at 1.
  simpl.
  destruct (Supabase.execute _ _) as [result|e]; simpl; [|done].
  destruct (Supabase.data result) as [|first rest] eqn:Hdata; simpl; [done|].
  destruct (split_go_cons " - " (Supabase.title first) 0 "") as (piece & pieces & Hs).
  unfold bind, lift, ret, getitem. simpl. rewrite Hs. simpl.
  by rewrite (foldl_snoc_fmap Supabase.content).
Qed.

(** ** Text *)

Lemma append_nil_r (s : string) : s +:+ "" = s.
Proof.
  induction s as [|c s IH]; [done|].
  change (String c s +:+ "") with (String c (s +:+ "")). by rewrite IH.
Qed.

Lemma append_assoc (s1 s2 s3 : string) : (s1 +:+ s2) +:+ s3 = s1 +:+ s2 +:+ s3.
Proof.
  induction s1 as [|c s1 IH]; [done|].
  change ((String c s1 +:+ s2) +:+ s3) with (String c ((s1 +:+ s2) +:+ s3)).
  by rewrite IH.
Qed.

Lemma prefix_append sep s :
  String.prefix sep s = true → ∃ post, s = sep +:+ post.
Proof.
  revert s. induction sep as [|a sep IH]; intros s Hp.
  - by exists s.
  - destruct s as [|b s]; simpl in Hp; [done|].
    destruct (ascii_dec a b) as [->|]; [|done].
    destruct (IH s Hp) as [post ->]. by exists post.
Qed.

Lemma prefix_append_intro sep post : String.prefix sep (sep +:+ post) = true.
Proof.
  induction sep as [|a sep IH]; [by destruct post|].
  change (String a sep +:+ post) with (String a (sep +:+ post)). simpl.
  by destruct (ascii_dec a a).
Qed.

(** [contains s sub] holds when [sub] lies somewhere in [s]. *)
Lemma contains_spec s sub :
  contains s sub = true ↔ ∃ pre post, s = pre +:+ sub +:+ post.
Proof.
  split.
  - induction s as [|c s IH]; cbn [contains]; intros Hc.
    + apply orb_true_iff in Hc as [Hp|?]; [|done].
      apply prefix_append in Hp as [post ->]. by exists "", post.
    + apply orb_true_iff in Hc as [Hp|Hc].
      * apply prefix_append in Hp as [post ->]. by exists "", post.
      * destruct (IH Hc) as (pre & post & ->). by exists (String c pre), post.
  - intros (pre & post & ->). induction pre as [|c pre IH].
    + change ("" +:+ sub +:+ post) with (sub +:+ post).
      destruct (sub +:+ post) eqn:Heq; cbn [contains]; rewrite <- Heq;
        by rewrite prefix_append_intro.
    + change (String c pre +:+ sub +:+ post) with (String c (pre +:+ sub +:+ post)).
      cbn [contains]. rewrite IH. apply orb_true_r.
Qed.

(** A text without the separator is one piece. *)
Lemma split_go_absent sep s cur :
  (∀ pre post, s ≠ pre +:+ sep +:+ post) →
  split_go sep s 0 cur = [cur +:+ s].
Proof.
  revert cur. induction s as [|c s IH]; intros cur Habsent; cbn [split_go].
  - by rewrite append_nil_r.
  - destruct (String.prefix sep (String c s)) eqn:Hp.
    + apply prefix_append in Hp as [post Hp]. by destruct (Habsent "" post).
    + rewrite IH.
      * by rewrite append_assoc.
      * intros pre post ->. by apply (Habsent (String c pre) post).
Qed.

(** ** The embedding *)

(** C2, as documented, fails: the vector of a provider that answers
    is handed back as it came, and one of three numbers has length 3. *)
Lemma get_embedding_length_unchecked : ¬ embedding_has_fixed_length.
Proof.
  intros Hclaim.
  destruct (Hclaim "webhook trigger" short_provider quiet) as (v & σ' & Hrun & Hlen & _).
  vm_compute in Hrun. injection Hrun as <- _. discriminate Hlen.
Qed.

(** C2, amended: whatever the text and whatever the provider does,
    [get_embedding] raises nothing and hands back a vector: 1536 zeros
    when the call to the provider raises (or its answer holds no
    embedding), and otherwise the first embedding of the answer,
    unchanged and of whatever length the provider gave it. *)
Theorem get_embedding_passes_through text c σ :
  ∃ v σ',
    get_embedding text c σ = (Returns v, σ') ∧
    match OpenAI.embeddings_create c "text-embedding-3-small" text with
    | Raises _ => v = replicate 1536 (PyInt 0) ∧ length v = 1536
    | Returns r =>
        match OpenAI.data r with
        | first :: _ => v = OpenAI.embedding first
        | [] => v = replicate 1536 (PyInt 0) ∧ length v = 1536
        end
    end.
Proof.
  destruct (get_embedding_run text c σ) as (v & σ' & Hrun & _ & Hv).
  exists v, σ'. split; [done|].
  destruct (OpenAI.embeddings_create c _ text) as [r|e].
  - destruct (OpenAI.data r) as [|first rest]; [|done].
    subst v. split; [done|apply length_replicate].
  - subst v. split; [done|apply length_replicate].
Qed.

(** The vector of three numbers comes back as it was sent. *)
Example get_embedding_short_answer :
  (get_embedding "webhook trigger" short_provider quiet).1
  = Returns [PyFloat (S754_finite false 1 0); PyFloat (S754_zero false);
             PyFloat (S754_finite true 3 (-2))].
Proof. reflexivity. Qed.

(** With a provider that keeps to vectors of 1536 numbers, the vector
    handed back has that length on every path. *)
Theorem get_embedding_fixed_length text c σ :
  provider_contract c →
  ∃ v σ',
    get_embedding text c σ = (Returns v, σ') ∧
    length v = 1536 ∧
    match OpenAI.embeddings_create c "text-embedding-3-small" text with
    | Raises _ => v = replicate 1536 (PyInt 0)
    | Returns _ => True
    end.
Proof.
  intros Hc. destruct (get_embedding_run text c σ) as (v & σ' & Hrun & _ & Hv).
  exists v, σ'. split; [done|].
  destruct (OpenAI.embeddings_create c _ text) as [r|e] eqn:Hr.
  - split; [|done]. apply Hc in Hr.
    destruct (OpenAI.data r) as [|first rest]; subst v.
    + apply length_replicate.
    + by inversion Hr.
  - subst v. split; [apply length_replicate|done].
Qed.

Lemma get_embedding_fixed_length_witness :
  provider_contract sample_provider ∧
  ∃ v σ',
    get_embedding "webhook trigger" sample_provider quiet = (Returns v, σ') ∧
    length v = 1536 ∧ True.
Proof.
  assert (provider_contract sample_provider) as Hc.
  { intros input r Hr. injection Hr as <-. simpl.
    repeat constructor. }
  split; [exact Hc|].
  exact (get_embedding_fixed_length "webhook trigger" sample_provider quiet Hc).
Defined.

(** With the provider down the zero vector comes back and the failure
    is printed. *)
Example get_embedding_provider_down :
  get_embedding "webhook trigger" failing_provider quiet
  = (Returns (replicate 1536 (PyInt 0)),
     {| stdout := ["Error getting embedding: Connection error."];
        sent := [EmbeddingsCreate "text-embedding-3-small" "webhook trigger"] |}).
Proof. reflexivity. Qed.

(** A malformed answer without any embedding ends the same way. *)
Lemma get_embedding_no_data text c σ :
  OpenAI.embeddings_create c "text-embedding-3-small" text
    = Returns {| OpenAI.data := [] |} →
  (get_embedding text c σ).1 = Returns (replicate 1536 (PyInt 0)).
Proof.
  intros Hr. destruct (get_embedding_run text c σ) as (v & σ' & -> & _ & Hv).
  rewrite Hr in Hv. simpl in Hv. by subst v.
Qed.

(** ** Semantic retrieval *)

(** C6: when the store answers the search with no row, the tool
    returns the text [No relevant documentation found.], which is not
    the empty text. *)
Theorem retrieve_no_rows ctx user_query σ :
  (∀ v σ1,
     get_embedding user_query (openai_client (deps ctx)) σ = (Returns v, σ1) →
     Supabase.execute (supabase (deps ctx)) (match_site_pages v)
       = Returns {| Supabase.data := [] |}) →
  ∃ σ',
    retrieve_relevant_documentation ctx user_query σ
      = (Returns "No relevant documentation found.", σ') ∧
    "No relevant documentation found." ≠ "".
Proof.
  intros Hrows.
  destruct (get_embedding_run user_query (openai_client (deps ctx)) σ)
    as (v & σ1 & Hv & _).
  rewrite (retrieve_run _ _ _ _ _ Hv), (Hrows _ _ Hv). simpl.
  by eexists.
Qed.

Lemma retrieve_no_rows_witness :
  ∃ σ',
    retrieve_relevant_documentation
      (context (store_answering []) sample_provider) "webhook trigger" quiet
      = (Returns "No relevant documentation found.", σ') ∧
    "No relevant documentation found." ≠ "".
Proof.
  apply (retrieve_no_rows (context (store_answering []) sample_provider)
           "webhook trigger" quiet).
  intros v σ1 _. reflexivity.
Defined.

(** C1: when the store answers the search with N rows, 1 <= N <= 5,
    the tool returns N blocks joined by the separator line; the block
    at each position is the one of the row at that position: a heading
    line [# title], a blank line, the content. *)
Theorem retrieve_renders_rows ctx user_query σ rows :
  1 ≤ length rows ≤ 5 →
  (∀ v σ1,
     get_embedding user_query (openai_client (deps ctx)) σ = (Returns v, σ1) →
     Supabase.execute (supabase (deps ctx)) (match_site_pages v)
       = Returns {| Supabase.data := rows |}) →
  ∃ blocks σ',
    retrieve_relevant_documentation ctx user_query σ
      = (Returns (join (LF +:+ LF +:+ "---" +:+ LF +:+ LF) blocks), σ') ∧
    length blocks = length rows ∧
    ∀ i doc,
      rows !! i = Some doc →
      blocks !! i
        = Some (LF +:+ "# " +:+ Supabase.title doc +:+ LF +:+
                LF +:+ Supabase.content doc +:+ LF).
Proof.
  intros [Hone _] Hrows.
  destruct (get_embedding_run user_query (openai_client (deps ctx)) σ)
    as (v & σ1 & Hv & _).
  rewrite (retrieve_run _ _ _ _ _ Hv), (Hrows _ _ Hv). simpl.
  destruct rows as [|doc0 rows]; [simpl in Hone; lia|].
  exists (chunk_text <$> doc0 :: rows). eexists. split_and!.
  - done.
  - by rewrite length_fmap.
  - intros i doc Hi. by rewrite list_lookup_fmap, Hi.
Qed.

Lemma retrieve_renders_rows_witness :
  ∃ blocks σ',
    retrieve_relevant_documentation
      (context (store_answering sample_rows) failing_provider) "webhook" quiet
      = (Returns (join (LF +:+ LF +:+ "---" +:+ LF +:+ LF) blocks), σ') ∧
    length blocks = length sample_rows ∧
    ∀ i doc,
      sample_rows !! i = Some doc →
      blocks !! i
        = Some (LF +:+ "# " +:+ Supabase.title doc +:+ LF +:+
                LF +:+ Supabase.content doc +:+ LF).
Proof.
  apply (retrieve_renders_rows
           (context (store_answering sample_rows) failing_provider) "webhook" quiet
           sample_rows).
  - simpl. lia.
  - intros v σ1 _. reflexivity.
Defined.

(** The rows keep the order of the store even when it is not the
    alphabetical one. *)
Example retrieve_two_rows :
  (retrieve_relevant_documentation
     (context (store_answering sample_rows) failing_provider) "webhook" quiet).1
  = Returns (LF +:+ "# Webhook node" +:+ LF +:+ LF +:+ "Listens for requests." +:+ LF
             +:+ LF +:+ LF +:+ "---" +:+ LF +:+ LF
             +:+ LF +:+ "# HTTP Request node" +:+ LF +:+ LF +:+ "Calls a service." +:+ LF).
Proof. reflexivity. Qed.

(** ** Page reconstruction *)

(** C7: when the store has no row for the URL, the tool returns
    [No content found for URL: ] followed by that URL. *)
Theorem get_page_no_rows ctx url σ :
  Supabase.execute (supabase (deps ctx)) (site_pages_chunks url)
    = Returns {| Supabase.data := [] |} →
  ∃ σ', get_page_content ctx url σ
        = (Returns ("No content found for URL: " +:+ url), σ').
Proof. intros Hrows. rewrite get_page_run, Hrows. simpl. by eexists. Qed.

Lemma get_page_no_rows_witness :
  ∃ σ', get_page_content (context (store_answering []) sample_provider)
          "https://docs.n8n.io/missing" quiet
        = (Returns ("No content found for URL: " +:+ "https://docs.n8n.io/missing"), σ').
Proof.
  apply (get_page_no_rows (context (store_answering []) sample_provider)
           "https://docs.n8n.io/missing" quiet).
  reflexivity.
Defined.

(** C4: for two rows titled [Setup Guide - n8n Docs] holding [Step 1.]
    and [Step 2.] as chunks 0 and 1, the page begins with the line
    [# Setup Guide] and its body is [Step 1.], a blank line, [Step 2.]. *)
Theorem get_page_setup_guide ctx url σ row0 row1 :
  Supabase.title row0 = "Setup Guide - n8n Docs" →
  Supabase.title row1 = "Setup Guide - n8n Docs" →
  Supabase.content row0 = "Step 1." → Supabase.chunk_number row0 = 0%Z →
  Supabase.content row1 = "Step 2." → Supabase.chunk_number row1 = 1%Z →
  Supabase.execute (supabase (deps ctx)) (site_pages_chunks url)
    = Returns {| Supabase.data := [row0; row1] |} →
  ∃ page σ',
    get_page_content ctx url σ = (Returns page, σ') ∧
    page = "# Setup Guide" +:+ LF +:+ (LF +:+ LF) +:+
           ("Step 1." +:+ LF +:+ LF +:+ "Step 2.") ∧
    split page LF = Returns ["# Setup Guide"; ""; ""; "Step 1."; ""; "Step 2."].
Proof.
  intros Ht0 _ Hc0 _ Hc1 _ Hrows. rewrite get_page_run, Hrows. simpl.
  rewrite Ht0, Hc0, Hc1. eexists _, _. split; [done|]. by vm_compute.
Qed.

Lemma get_page_setup_guide_witness :
  ∃ page σ',
    get_page_content (context (store_answering setup_rows) sample_provider)
      "https://docs.n8n.io/setup" quiet = (Returns page, σ') ∧
    page = "# Setup Guide" +:+ LF +:+ (LF +:+ LF) +:+
           ("Step 1." +:+ LF +:+ LF +:+ "Step 2.") ∧
    split page LF = Returns ["# Setup Guide"; ""; ""; "Step 1."; ""; "Step 2."].
Proof.
  apply (get_page_setup_guide (context (store_answering setup_rows) sample_provider)
           "https://docs.n8n.io/setup" quiet
           (chunk "https://docs.n8n.io/setup" "Setup Guide - n8n Docs" "Step 1." 0)
           (chunk "https://docs.n8n.io/setup" "Setup Guide - n8n Docs" "Step 2." 1));
    reflexivity.
Defined.

(** C10: a title of the first row without [ - ] is the heading as it
    is. *)
Theorem get_page_title_without_delimiter ctx url σ first rest :
  contains (Supabase.title first) " - " = false →
  Supabase.execute (supabase (deps ctx)) (site_pages_chunks url)
    = Returns {| Supabase.data := first :: rest |} →
  ∃ σ',
    get_page_content ctx url σ
    = (Returns (join (LF +:+ LF)
                  (("# " +:+ Supabase.title first +:+ LF)
                   :: (Supabase.content <$> first :: rest))),
       σ').
Proof.
  intros Habsent Hrows. rewrite get_page_run, Hrows. cbn [Supabase.data].
  rewrite (split_go_absent " - " _ ""); [by eexists|].
  intros pre post Ht. apply not_true_iff_false in Habsent. apply Habsent.
  apply contains_spec. by exists pre, post.
Qed.

Lemma get_page_title_without_delimiter_witness :
  ∃ σ',
    get_page_content (context (store_answering quickstart_rows) sample_provider)
      "https://docs.n8n.io/q" quiet
    = (Returns (join (LF +:+ LF) ["# Quickstart" +:+ LF; "Install."; "Run."]), σ').
Proof.
  apply (get_page_title_without_delimiter
           (context (store_answering quickstart_rows) sample_provider)
           "https://docs.n8n.io/q" quiet
           (chunk "https://docs.n8n.io/q" "Quickstart" "Install." 0)
           [chunk "https://docs.n8n.io/q" "Quickstart" "Run." 1]);
    reflexivity.
Defined.

(** ** The catalogue *)

(** Sorting forgets the order in which a set was iterated. *)
Lemma sorted_set_iter set_iter1 set_iter2 (X : gset string) :
  set_iteration set_iter1 → set_iteration set_iter2 →
  sorted (set_iter1 X) = sorted (set_iter2 X).
Proof.
  intros H1 H2. unfold sorted.
  apply (Sorted_unique String.le); try apply Sorted_merge_sort; try apply _.
  by rewrite !merge_sort_Permutation, (H1 X), (H2 X).
Qed.

Lemma sorted_set_elem_of set_iter (l : list string) u :
  set_iteration set_iter →
  u ∈ sorted (set_iter (list_to_set l)) ↔ u ∈ l.
Proof.
  intros Hiter. unfold sorted.
  rewrite merge_sort_Permutation, (Hiter _), elem_of_elements. set_solver.
Qed.

(** C5: whatever rows the store answers with, the list of
    [list_documentation_pages] ascends in the lexical order and holds
    no URL twice. *)
Theorem list_pages_sorted_unique set_iter ctx σ :
  set_iteration set_iter →
  ∃ urls σ',
    list_documentation_pages set_iter ctx σ = (Returns urls, σ') ∧
    StronglySorted String.le urls ∧
    NoDup urls.
Proof.
  intros Hiter. rewrite list_run. cbn zeta.
  destruct (Supabase.execute _ _) as [result|e].
  - destruct (py_not _); eexists _, _; (split; [done|]).
    + split; constructor.
    + split; [apply (StronglySorted_merge_sort String.le)|].
      unfold sorted. rewrite merge_sort_Permutation, (Hiter _). apply NoDup_elements.
  - eexists _, _. split; [done|]. split; constructor.
Qed.

Lemma list_pages_sorted_unique_witness :
  ∃ urls σ',
    list_documentation_pages elements
      (context (store_answering (sample_rows ++ sample_rows)) sample_provider) quiet
      = (Returns urls, σ') ∧
    StronglySorted String.le urls ∧
    NoDup urls.
Proof.
  apply (list_pages_sorted_unique elements
           (context (store_answering (sample_rows ++ sample_rows)) sample_provider)
           quiet).
  intros X. reflexivity.
Defined.

Example list_pages_duplicates :
  (list_documentation_pages elements
     (context (store_answering (reverse sample_rows ++ sample_rows)) sample_provider)
     quiet).1
  = Returns ["https://docs.n8n.io/a"; "https://docs.n8n.io/b"].
Proof. by vm_compute. Qed.

(** The list holds the URLs of the rows and nothing else. *)
Lemma list_pages_elem_of set_iter ctx σ rows u :
  set_iteration set_iter →
  Supabase.execute (supabase (deps ctx)) site_pages_urls
    = Returns {| Supabase.data := rows |} →
  ∃ urls σ',
    list_documentation_pages set_iter ctx σ = (Returns urls, σ') ∧
    (u ∈ urls ↔ u ∈ Supabase.url <$> rows).
Proof.
  intros Hiter Hrows. rewrite list_run, Hrows. cbn zeta. cbn [Supabase.data].
  eexists _, _. split; [done|].
  destruct rows as [|doc rows]; [done|]. cbn [py_not].
  by apply sorted_set_elem_of.
Qed.

(** ** The source labels *)

(** C9: the listing and the page reconstruction restrict the rows to
    the source [n8n_docs], the semantic retrieval to the source
    [pydantic_ai_docs]; the two labels differ. *)
Theorem source_labels_differ set_iter ctx user_query url σ :
  source_label <$> executed (retrieve_relevant_documentation ctx user_query σ).2
    = (source_label <$> executed σ) ++ [Some "pydantic_ai_docs"] ∧
  source_label <$> executed (list_documentation_pages set_iter ctx σ).2
    = (source_label <$> executed σ) ++ [Some "n8n_docs"] ∧
  source_label <$> executed (get_page_content ctx url σ).2
    = (source_label <$> executed σ) ++ [Some "n8n_docs"] ∧
  "n8n_docs" ≠ "pydantic_ai_docs".
Proof.
  split_and!; [| | |done].
  - destruct (get_embedding_run user_query (openai_client (deps ctx)) σ)
      as (v & σ1 & Hv & Hsent & _).
    rewrite (retrieve_run _ _ _ _ _ Hv). cbn zeta.
    destruct (Supabase.execute _ _); simpl;
      by rewrite executed_execute, fmap_app, Hsent.
  - rewrite list_run. cbn zeta.
    destruct (Supabase.execute _ _); simpl; by rewrite executed_execute, fmap_app.
  - rewrite get_page_run. cbn zeta.
    destruct (Supabase.execute _ _); simpl; by rewrite executed_execute, fmap_app.
Qed.

(** ** Failures of the store *)

Lemma error_indicator_documentation msg :
  error_indicator ("Error retrieving documentation: " +:+ msg).
Proof. by exists ("documentation: " +:+ msg). Qed.

Lemma error_indicator_page_content msg :
  error_indicator ("Error retrieving page content: " +:+ msg).
Proof. by exists ("page content: " +:+ msg). Qed.

(** C3, as documented, fails: with the store down the listing returns
    the empty list, not a text. *)
Lemma listing_failure_gives_no_text : ¬ failure_gives_error_text.
Proof.
  intros Hclaim.
  destruct (Hclaim elements (context failing_store sample_provider)
              ListDocumentationPages quiet) as (s & σ' & Hcall & _).
  - intros X. reflexivity.
  - intros q. by eexists.
  - vm_compute in Hcall. discriminate Hcall.
Qed.

(** C3, amended: when the store raises, the retrieval and the page
    reconstruction return a text that begins with [Error retrieving]
    and carries the message of the exception, the listing returns the
    empty list; each tool prints the failure and raises nothing. *)
Theorem store_failure_is_caught set_iter ctx t σ e :
  (∀ q, Supabase.execute (supabase (deps ctx)) q = Raises e) →
  ∃ σ',
    call_tool set_iter ctx t σ
    = (Returns
         match t with
         | RetrieveRelevantDocumentation _ =>
             Str ("Error retrieving documentation: " +:+ str e)
         | ListDocumentationPages => StrList []
         | GetPageContent _ => Str ("Error retrieving page content: " +:+ str e)
         end,
       σ') ∧
    last (stdout σ')
    = Some
        match t with
        | RetrieveRelevantDocumentation _ =>
            "Error retrieving documentation: " +:+ str e
        | ListDocumentationPages => "Error retrieving documentation pages: " +:+ str e
        | GetPageContent _ => "Error retrieving page content: " +:+ str e
        end.
Proof.
  intros Hdown. destruct t as [user_query| |url]; unfold call_tool, fmap_io, bind, ret.
  - destruct (get_embedding_run user_query (openai_client (deps ctx)) σ)
      as (v & σ1 & Hv & _).
    rewrite (retrieve_run _ _ _ _ _ Hv), Hdown. simpl.
    eexists. split; [done|]. simpl. apply last_snoc.
  - rewrite list_run, Hdown. simpl. eexists. split; [done|]. simpl. apply last_snoc.
  - rewrite get_page_run, Hdown. simpl. eexists. split; [done|]. simpl. apply last_snoc.
Qed.

Lemma store_failure_is_caught_witness :
  ∃ σ',
    call_tool elements (context failing_store sample_provider)
      ListDocumentationPages quiet
    = (Returns (StrList []), σ') ∧
    last (stdout σ')
    = Some ("Error retrieving documentation pages: " +:+ "Server disconnected").
Proof.
  apply (store_failure_is_caught elements (context failing_store sample_provider)
           ListDocumentationPages quiet (Exception "Server disconnected")).
  intros q. reflexivity.
Defined.

(** ** Determinism *)

Lemma get_embedding_outcome text c σ1 σ2 :
  (get_embedding text c σ1).1 = (get_embedding text c σ2).1.
Proof.
  destruct (get_embedding_run text c σ1) as (v1 & ? & -> & _ & Hv1).
  destruct (get_embedding_run text c σ2) as (v2 & ? & -> & _ & Hv2).
  simpl. f_equal.
  destruct (OpenAI.embeddings_create c _ text) as [r|]; [|congruence].
  destruct (OpenAI.data r); congruence.
Qed.

(** C8: two calls of a tool with the same arguments on the same
    deps return the same value, whatever was printed or sent in
    between and whatever the order in which sets are iterated. *)
Theorem tools_deterministic set_iter1 set_iter2 ctx t σ1 σ2 :
  set_iteration set_iter1 → set_iteration set_iter2 →
  (call_tool set_iter1 ctx t σ1).1 = (call_tool set_iter2 ctx t σ2).1.
Proof.
  intros H1 H2. destruct t as [user_query| |url]; unfold call_tool, fmap_io, bind, ret.
  - pose proof (get_embedding_outcome user_query (openai_client (deps ctx)) σ1 σ2) as Hv.
    destruct (get_embedding_run user_query (openai_client (deps ctx)) σ1)
      as (v1 & τ1 & Hv1 & _).
    destruct (get_embedding_run user_query (openai_client (deps ctx)) σ2)
      as (v2 & τ2 & Hv2 & _).
    rewrite Hv1, Hv2 in Hv. simpl in Hv. injection Hv as <-.
    rewrite (retrieve_run _ _ _ _ _ Hv1), (retrieve_run _ _ _ _ _ Hv2). cbn zeta.
    by destruct (Supabase.execute _ _).
  - rewrite !list_run. cbn zeta.
    destruct (Supabase.execute _ _) as [result|]; [|done].
    destruct (py_not _); [done|]. simpl.
    by rewrite (sorted_set_iter set_iter1 set_iter2).
  - rewrite !get_page_run. cbn zeta. by destruct (Supabase.execute _ _).
Qed.

Lemma tools_deterministic_witness :
  (call_tool elements (context (store_answering sample_rows) sample_provider)
     ListDocumentationPages quiet).1
  = (call_tool (reverse ∘ elements)
       (context (store_answering sample_rows) sample_provider)
       ListDocumentationPages
       (call_tool elements (context (store_answering sample_rows) sample_provider)
          ListDocumentationPages quiet).2).1.
Proof.
  apply (tools_deterministic elements (reverse ∘ elements)).
  - intros X. reflexivity.
  - intros X. simpl. apply reverse_Permutation.
Defined.

(** * Further properties of the coroutines *)

(** ** What a run prints and sends *)

Lemma get_embedding_effects text c σ :
  get_embedding text c σ =
    let sent' := sent σ ++ [EmbeddingsCreate "text-embedding-3-small" text] in
    match OpenAI.embeddings_create c "text-embedding-3-small" text with
    | Returns r =>
        match OpenAI.data r with
        | first :: _ =>
            (Returns (OpenAI.embedding first), {| stdout := stdout σ; sent := sent' |})
        | [] =>
            (Returns zero_vector,
             {| stdout := stdout σ ++ ["Error getting embedding: list index out of range"];
                sent := sent' |})
        end
    | Raises e =>
        (Returns zero_vector,
         {| stdout := stdout σ ++ ["Error getting embedding: " +:+ str e];
            sent := sent' |})
    end.
Proof.
  unfold get_embedding, try_except, await_create, bind, send, lift, ret, print.
  simpl.
  destruct (OpenAI.embeddings_create c _ text) as [r|e]; simpl; [|done].
  by destruct (OpenAI.data r).
Qed.

(** X1: an answer of the provider that holds no embedding is handled
    as a failure: the zero vector comes back and the index error is
    printed. *)
Theorem get_embedding_empty_answer text c σ :
  OpenAI.embeddings_create c "text-embedding-3-small" text
    = Returns {| OpenAI.data := [] |} →
  ∃ σ',
    get_embedding text c σ = (Returns (replicate 1536 (PyInt 0)), σ') ∧
    stdout σ' = stdout σ ++ ["Error getting embedding: list index out of range"].
Proof. intros Hr. rewrite get_embedding_effects, Hr. simpl. by eexists. Qed.

Lemma get_embedding_empty_answer_witness :
  ∃ σ',
    get_embedding "webhook trigger" empty_answer_provider quiet
      = (Returns (replicate 1536 (PyInt 0)), σ') ∧
    stdout σ' = stdout quiet ++ ["Error getting embedding: list index out of range"].
Proof.
  apply (get_embedding_empty_answer "webhook trigger" empty_answer_provider quiet).
  reflexivity.
Defined.

Lemma get_embedding_sent text c σ :
  sent (get_embedding text c σ).2
  = sent σ ++ [EmbeddingsCreate "text-embedding-3-small" text].
Proof.
  rewrite get_embedding_effects. cbn zeta.
  destruct (OpenAI.embeddings_create c _ text) as [r|e]; [|done].
  by destruct (OpenAI.data r).
Qed.

(** X2: whatever the provider answers, [get_embedding] sends it one
    request, for the model [text-embedding-3-small] and the text
    given, and sends nothing to the store; it does not try again. *)
Theorem get_embedding_one_request text c σ :
  sent (get_embedding text c σ).2
  = sent σ ++ [EmbeddingsCreate "text-embedding-3-small" text] ∧
  executed (get_embedding text c σ).2 = executed σ.
Proof.
  split; [apply get_embedding_sent|].
  by destruct (get_embedding_run text c σ) as (v & σ' & -> & Hx & _).
Qed.

(** ** The retrieval beyond its documented cases *)

(** X3: a failure of the provider does not stop the retrieval: the
    search is sent with the vector of 1536 zeros, the failure of the
    embedding is printed, and the rows of the store are rendered. *)
Theorem retrieve_provider_down ctx user_query σ e rows :
  OpenAI.embeddings_create (openai_client (deps ctx)) "text-embedding-3-small" user_query
    = Raises e →
  Supabase.execute (supabase (deps ctx)) (match_site_pages (replicate 1536 (PyInt 0)))
    = Returns {| Supabase.data := rows |} →
  rows ≠ [] →
  retrieve_relevant_documentation ctx user_query σ
  = (Returns (join (LF +:+ LF +:+ "---" +:+ LF +:+ LF) (chunk_text <$> rows)),
     {| stdout := stdout σ ++ ["Error getting embedding: " +:+ str e];
        sent := sent σ ++ [EmbeddingsCreate "text-embedding-3-small" user_query;
                           Execute (match_site_pages (replicate 1536 (PyInt 0)))] |}).
Proof.
  intros He Hrows Hne.
  pose proof (get_embedding_effects user_query (openai_client (deps ctx)) σ) as Hv.
  rewrite He in Hv. cbn zeta in Hv.
  rewrite (retrieve_run _ _ _ _ _ Hv). unfold zero_vector. rewrite Hrows. simpl.
  destruct rows as [|doc rows]; [done|]. simpl. by rewrite <- app_assoc.
Qed.

Lemma retrieve_provider_down_witness :
  retrieve_relevant_documentation
    (context (store_answering sample_rows) failing_provider) "webhook" quiet
  = (Returns (join (LF +:+ LF +:+ "---" +:+ LF +:+ LF) (chunk_text <$> sample_rows)),
     {| stdout := stdout quiet ++ ["Error getting embedding: " +:+ "Connection error."];
        sent := sent quiet ++ [EmbeddingsCreate "text-embedding-3-small" "webhook";
                               Execute (match_site_pages (replicate 1536 (PyInt 0)))] |}).
Proof.
  apply (retrieve_provider_down
           (context (store_answering sample_rows) failing_provider) "webhook" quiet
           (Exception "Connection error.") sample_rows).
  - reflexivity.
  - reflexivity.
  - discriminate.
Defined.

(** X4: the 5 of [match_count] is asked of the store, not enforced:
    when more rows come back, each of them is rendered. *)
Theorem retrieve_renders_every_row ctx user_query σ rows :
  5 < length rows →
  (∀ v σ1,
     get_embedding user_query (openai_client (deps ctx)) σ = (Returns v, σ1) →
     Supabase.execute (supabase (deps ctx)) (match_site_pages v)
       = Returns {| Supabase.data := rows |}) →
  ∃ blocks σ',
    retrieve_relevant_documentation ctx user_query σ
      = (Returns (join (LF +:+ LF +:+ "---" +:+ LF +:+ LF) blocks), σ') ∧
    blocks = chunk_text <$> rows ∧
    length blocks = length rows.
Proof.
  intros Hmany Hrows.
  destruct (get_embedding_run user_query (openai_client (deps ctx)) σ)
    as (v & σ1 & Hv & _).
  rewrite (retrieve_run _ _ _ _ _ Hv), (Hrows _ _ Hv). cbn zeta. cbn [Supabase.data].
  destruct rows as [|doc rows]; [simpl in Hmany; lia|]. cbn [py_not].
  eexists _, _. split_and!; [done..|]. by rewrite length_fmap.
Qed.

Lemma retrieve_renders_every_row_witness :
  ∃ blocks σ',
    retrieve_relevant_documentation
      (context (store_answering six_rows) sample_provider) "nodes" quiet
      = (Returns (join (LF +:+ LF +:+ "---" +:+ LF +:+ LF) blocks), σ') ∧
    blocks = chunk_text <$> six_rows ∧
    length blocks = length six_rows.
Proof.
  apply (retrieve_renders_every_row
           (context (store_answering six_rows) sample_provider) "nodes" quiet six_rows).
  - simpl. lia.
  - intros v σ1 _. reflexivity.
Defined.

Lemma join_cons_nonempty sep c piece pieces :
  join sep (String c piece :: pieces) ≠ "".
Proof. unfold join. by destruct pieces. Qed.

(** X5: whatever the provider and the store do, the retrieval raises
    nothing and returns a text that is not empty. *)
Theorem retrieve_never_empty ctx user_query σ :
  ∃ text σ',
    retrieve_relevant_documentation ctx user_query σ = (Returns text, σ') ∧
    text ≠ "".
Proof.
  destruct (get_embedding_run user_query (openai_client (deps ctx)) σ)
    as (v & σ1 & Hv & _).
  rewrite (retrieve_run _ _ _ _ _ Hv). cbn zeta.
  destruct (Supabase.execute _ _) as [result|e]; eexists _, _; (split; [done|]).
  - destruct (Supabase.data result) as [|doc rows]; [done|].
    cbn [py_not fmap list_fmap]. apply join_cons_nonempty.
  - done.
Qed.

(** X6: whatever the store does, the page reconstruction raises
    nothing and returns a text that is not empty. *)
Theorem get_page_never_empty ctx url σ :
  ∃ text σ',
    get_page_content ctx url σ = (Returns text, σ') ∧
    text ≠ "".
Proof.
  rewrite get_page_run. cbn zeta.
  destruct (Supabase.execute _ _) as [result|e]; eexists _, _; (split; [done|]).
  - destruct (Supabase.data result) as [|first rest]; [done|].
    apply join_cons_nonempty.
  - done.
Qed.

(** ** The catalogue and the rows behind it *)

(** X7: the list of [list_documentation_pages] holds the URL of every
    row of the answer and no other text. *)
Theorem list_pages_exact_urls set_iter ctx σ rows :
  set_iteration set_iter →
  Supabase.execute (supabase (deps ctx)) site_pages_urls
    = Returns {| Supabase.data := rows |} →
  ∃ urls σ',
    list_documentation_pages set_iter ctx σ = (Returns urls, σ') ∧
    ∀ u, u ∈ urls ↔ ∃ doc, doc ∈ rows ∧ Supabase.url doc = u.
Proof.
  intros Hiter Hrows. rewrite list_run, Hrows. cbn zeta. cbn [Supabase.data].
  eexists _, _. split; [done|]. intros u.
  destruct rows as [|doc0 rows].
  - cbn [py_not]. split; [by intros ?%elem_of_nil|]. by intros (doc & ?%elem_of_nil & _).
  - cbn [py_not]. rewrite sorted_set_elem_of by done.
    rewrite list_elem_of_fmap. split.
    + intros (doc & -> & Hin). by exists doc.
    + intros (doc & Hin & <-). by exists doc.
Qed.

Lemma list_pages_exact_urls_witness :
  ∃ urls σ',
    list_documentation_pages elements
      (context (store_answering (sample_rows ++ sample_rows)) sample_provider) quiet
      = (Returns urls, σ') ∧
    ∀ u, u ∈ urls ↔ ∃ doc, doc ∈ sample_rows ++ sample_rows ∧ Supabase.url doc = u.
Proof.
  apply (list_pages_exact_urls elements
           (context (store_answering (sample_rows ++ sample_rows)) sample_provider)
           quiet (sample_rows ++ sample_rows)).
  - intros X. reflexivity.
  - reflexivity.
Defined.

(** X8: the list depends on the set of the URLs only: two answers
    that hold the same URLs, in whatever order and however often, give
    the same list. *)
Theorem list_pages_order_irrelevant set_iter1 set_iter2 ctx1 ctx2 σ1 σ2 rows1 rows2 :
  set_iteration set_iter1 → set_iteration set_iter2 →
  Supabase.execute (supabase (deps ctx1)) site_pages_urls
    = Returns {| Supabase.data := rows1 |} →
  Supabase.execute (supabase (deps ctx2)) site_pages_urls
    = Returns {| Supabase.data := rows2 |} →
  (∀ u, u ∈ Supabase.url <$> rows1 ↔ u ∈ Supabase.url <$> rows2) →
  (list_documentation_pages set_iter1 ctx1 σ1).1
  = (list_documentation_pages set_iter2 ctx2 σ2).1.
Proof.
  intros H1 H2 Hrows1 Hrows2 Hsame. rewrite !list_run, Hrows1, Hrows2.
  cbn zeta. cbn [Supabase.data fst].
  assert (list_to_set (Supabase.url <$> rows1)
          = (list_to_set (Supabase.url <$> rows2) : gset string)) as Hset.
  { apply set_eq. intros u. by rewrite !elem_of_list_to_set. }
  destruct rows1 as [|doc1 rows1], rows2 as [|doc2 rows2]; cbn [py_not].
  - done.
  - destruct (Hsame (Supabase.url doc2)) as [_ Hin].
    apply elem_of_nil in Hin; [done|]. rewrite fmap_cons. apply list_elem_of_here.
  - destruct (Hsame (Supabase.url doc1)) as [Hin _].
    apply elem_of_nil in Hin; [done|]. rewrite fmap_cons. apply list_elem_of_here.
  - f_equal. rewrite Hset. by apply sorted_set_iter.
Qed.

Lemma list_pages_order_irrelevant_witness :
  (list_documentation_pages elements
     (context (store_answering sample_rows) sample_provider) quiet).1
  = (list_documentation_pages (reverse ∘ elements)
       (context (store_answering (reverse sample_rows ++ sample_rows)) failing_provider)
       quiet).1.
Proof.
  apply (list_pages_order_irrelevant elements (reverse ∘ elements)
           (context (store_answering sample_rows) sample_provider)
           (context (store_answering (reverse sample_rows ++ sample_rows))
              failing_provider)
           quiet quiet sample_rows (reverse sample_rows ++ sample_rows)).
  - intros X. reflexivity.
  - intros X. simpl. apply reverse_Permutation.
  - reflexivity.
  - reflexivity.
  - intros u. simpl. rewrite !elem_of_cons. tauto.
Defined.

(** ** The page and its heading *)

(** The first piece of a split ends where the separator first occurs. *)
Lemma split_go_first sep s cur :
  ∃ pre pieces,
    split_go sep s 0 cur = (cur +:+ pre) :: pieces ∧
    ((contains s sep = false ∧ pre = s ∧ pieces = []) ∨
     (∃ post, s = pre +:+ sep +:+ post ∧
              ∀ pre' post', s = pre' +:+ sep +:+ post' →
                            String.length pre ≤ String.length pre')).
Proof.
  revert cur. induction s as [|c s IH]; intros cur; cbn [split_go contains].
  - destruct (String.prefix sep "") eqn:Hp.
    + apply prefix_append in Hp as [post Hp]. exists "", [].
      split; [by rewrite append_nil_r|]. right. exists post.
      split; [done|]. intros; simpl; lia.
    + exists "", []. split; [by rewrite append_nil_r|]. by left.
  - destruct (String.prefix sep (String c s)) eqn:Hp.
    + apply prefix_append in Hp as [post Hp]. eexists "", _.
      split; [by rewrite append_nil_r|]. right. exists post.
      split; [done|]. intros; simpl; lia.
    + destruct (IH (cur +:+ String c "")) as (pre & pieces & Hgo & Hcase).
      exists (String c pre), pieces. split; [by rewrite Hgo, append_assoc|].
      destruct Hcase as [(Hno & -> & ->)|(post & -> & Hmin)].
      * left. by rewrite Hno.
      * right. exists post. split; [done|].
        intros [|c' pre'] post' Heq.
        -- change ("" +:+ sep +:+ post') with (sep +:+ post') in Heq.
           rewrite Heq, prefix_append_intro in Hp. done.
        -- injection Heq as -> Heq. apply Hmin in Heq. simpl. lia.
Qed.

(** X9: the heading of a page is the title of the first row up to
    the first [ - ] in it: either the title holds no [ - ] and is the
    heading, or the title is the heading, [ - ] and a rest, and no
    [ - ] begins earlier in the title. *)
Theorem get_page_heading_first_delimiter ctx url σ first rest :
  Supabase.execute (supabase (deps ctx)) (site_pages_chunks url)
    = Returns {| Supabase.data := first :: rest |} →
  ∃ page_title σ',
    get_page_content ctx url σ
    = (Returns (join (LF +:+ LF)
                  (("# " +:+ page_title +:+ LF)
                   :: (Supabase.content <$> first :: rest))),
       σ') ∧
    ((contains (Supabase.title first) " - " = false ∧
      page_title = Supabase.title first) ∨
     (∃ post,
        Supabase.title first = page_title +:+ " - " +:+ post ∧
        ∀ pre' post',
          Supabase.title first = pre' +:+ " - " +:+ post' →
          String.length page_title ≤ String.length pre')).
Proof.
  intros Hrows. rewrite get_page_run, Hrows. cbn zeta. cbn [Supabase.data].
  destruct (split_go_first " - " (Supabase.title first) "")
    as (pre & pieces & Hgo & Hcase).
  rewrite Hgo. cbn [head default].
  change ("" +:+ pre) with pre.
  exists pre. eexists. split; [done|].
  destruct Hcase as [(Hno & -> & _)|Hpost]; [by left|by right].
Qed.

Lemma get_page_heading_first_delimiter_witness :
  ∃ page_title σ',
    get_page_content (context (store_answering setup_rows) sample_provider)
      "https://docs.n8n.io/setup" quiet
    = (Returns (join (LF +:+ LF)
                  (("# " +:+ page_title +:+ LF)
                   :: (Supabase.content <$> setup_rows))),
       σ') ∧
    ((contains "Setup Guide - n8n Docs" " - " = false ∧
      page_title = "Setup Guide - n8n Docs") ∨
     (∃ post,
        "Setup Guide - n8n Docs" = page_title +:+ " - " +:+ post ∧
        ∀ pre' post',
          "Setup Guide - n8n Docs" = pre' +:+ " - " +:+ post' →
          String.length page_title ≤ String.length pre')).
Proof.
  apply (get_page_heading_first_delimiter
           (context (store_answering setup_rows) sample_provider)
           "https://docs.n8n.io/setup" quiet
           (chunk "https://docs.n8n.io/setup" "Setup Guide - n8n Docs" "Step 1." 0)
           [chunk "https://docs.n8n.io/setup" "Setup Guide - n8n Docs" "Step 2." 1]).
  reflexivity.
Defined.

(** X10: the text of a page is made of the title of the first row and
    of the contents in the order of the answer; the numbers of the
    chunks, the URLs of the rows and the titles of the later rows are
    not read. *)
Theorem get_page_reads_title_and_contents ctx1 ctx2 url σ1 σ2 rows1 rows2 :
  Supabase.execute (supabase (deps ctx1)) (site_pages_chunks url)
    = Returns {| Supabase.data := rows1 |} →
  Supabase.execute (supabase (deps ctx2)) (site_pages_chunks url)
    = Returns {| Supabase.data := rows2 |} →
  Supabase.title <$> head rows1 = Supabase.title <$> head rows2 →
  Supabase.content <$> rows1 = Supabase.content <$> rows2 →
  (get_page_content ctx1 url σ1).1 = (get_page_content ctx2 url σ2).1.
Proof.
  intros Hrows1 Hrows2 Htitle Hcontents.
  rewrite !get_page_run, Hrows1, Hrows2. cbn zeta. cbn [Supabase.data fst].
  destruct rows1 as [|first1 rest1], rows2 as [|first2 rest2]; try done.
  simpl in Htitle. injection Htitle as ->. by rewrite Hcontents.
Qed.

Lemma get_page_reads_title_and_contents_witness :
  (get_page_content (context (store_answering setup_rows) sample_provider)
     "https://docs.n8n.io/setup" quiet).1
  = (get_page_content
       (context (store_answering
                   [ chunk "https://other.example" "Setup Guide - n8n Docs" "Step 1." 7;
                     chunk "" "Another title" "Step 2." 7 ])
          failing_provider)
       "https://docs.n8n.io/setup" quiet).1.
Proof.
  apply (get_page_reads_title_and_contents
           (context (store_answering setup_rows) sample_provider)
           (context (store_answering
                       [ chunk "https://other.example" "Setup Guide - n8n Docs" "Step 1." 7;
                         chunk "" "Another title" "Step 2." 7 ])
              failing_provider)
           "https://docs.n8n.io/setup" quiet quiet setup_rows
           [ chunk "https://other.example" "Setup Guide - n8n Docs" "Step 1." 7;
             chunk "" "Another title" "Step 2." 7 ]);
    reflexivity.
Defined.

(** ** Requests and printed lines of a call *)

(** X11: a call of a tool sends the same requests whatever the
    services answer: the retrieval one request to the provider and
    then one search, the listing and the page reconstruction one
    request to the store and none to the provider.  Nothing is sent a
    second time after a failure. *)
Theorem call_tool_requests set_iter ctx t σ :
  ∃ v,
    sent (call_tool set_iter ctx t σ).2
    = sent σ ++
      match t with
      | RetrieveRelevantDocumentation user_query =>
          [EmbeddingsCreate "text-embedding-3-small" user_query;
           Execute (match_site_pages v)]
      | ListDocumentationPages => [Execute site_pages_urls]
      | GetPageContent url => [Execute (site_pages_chunks url)]
      end ∧
    match t with
    | RetrieveRelevantDocumentation user_query =>
        (get_embedding user_query (openai_client (deps ctx)) σ).1 = Returns v
    | ListDocumentationPages | GetPageContent _ => v = []
    end.
Proof.
  destruct t as [user_query| |url]; unfold call_tool, fmap_io, bind, ret.
  - destruct (get_embedding_run user_query (openai_client (deps ctx)) σ)
      as (v & σ1 & Hv & _).
    pose proof (get_embedding_sent user_query (openai_client (deps ctx)) σ)
      as Hsent.
    rewrite Hv in Hsent. cbn [snd] in Hsent.
    exists v. split; [|by rewrite Hv]. rewrite (retrieve_run _ _ _ _ _ Hv). cbn zeta.
    destruct (Supabase.execute _ _); simpl; by rewrite Hsent, <- app_assoc.
  - exists []. split; [|done]. rewrite list_run. cbn zeta.
    by destruct (Supabase.execute _ _).
  - exists []. split; [|done]. rewrite get_page_run. cbn zeta.
    by destruct (Supabase.execute _ _).
Qed.

(** X12: a call prints nothing as long as the services answer: the
    store returns and the provider returns an answer that holds an
    embedding. *)
Theorem call_tool_quiet_on_success set_iter ctx t σ :
  (∀ q, ∃ result, Supabase.execute (supabase (deps ctx)) q = Returns result) →
  (∀ input, ∃ first rest,
     OpenAI.embeddings_create (openai_client (deps ctx)) "text-embedding-3-small" input
     = Returns {| OpenAI.data := first :: rest |}) →
  stdout (call_tool set_iter ctx t σ).2 = stdout σ.
Proof.
  intros Hstore Hprovider.
  destruct t as [user_query| |url]; unfold call_tool, fmap_io, bind, ret.
  - pose proof (get_embedding_effects user_query (openai_client (deps ctx)) σ) as Hv.
    destruct (Hprovider user_query) as (first & rest & Hr).
    rewrite Hr in Hv. cbn zeta in Hv. cbn [OpenAI.data] in Hv.
    rewrite (retrieve_run _ _ _ _ _ Hv). cbn zeta.
    destruct (Hstore (match_site_pages (OpenAI.embedding first))) as [result ->].
    done.
  - rewrite list_run. cbn zeta. by destruct (Hstore site_pages_urls) as [result ->].
  - rewrite get_page_run. cbn zeta.
    by destruct (Hstore (site_pages_chunks url)) as [result ->].
Qed.

Lemma call_tool_quiet_on_success_witness :
  stdout (call_tool elements (context (store_answering sample_rows) sample_provider)
            (RetrieveRelevantDocumentation "webhook") quiet).2
  = stdout quiet.
Proof.
  apply (call_tool_quiet_on_success elements
           (context (store_answering sample_rows) sample_provider)
           (RetrieveRelevantDocumentation "webhook") quiet).
  - intros q. eexists. reflexivity.
  - intros input. eexists _, _. reflexivity.
Defined.
